(** * The prompt relay handler of [src/model/app.py]

    The module is one FastAPI route, [POST /generate-video], whose handler
    [generate] builds a Vertex AI endpoint reference from two module
    globals, calls [predict] on it with the caller's prompt and returns the
    first prediction.  The Google SDK is a collaborator the module only
    calls; it is a parameter of the development ([Sdk]), with a state of
    its own that the handler can neither read nor write. *)

From Stdlib Require Import String Ascii List ZArith Bool Lia.
Import ListNotations.
Open Scope string_scope.
Open Scope list_scope.

Set Implicit Arguments.
Set Warnings "-register-all".

(** ** Python values and exceptions *)

(** The JSON-like values that travel through the handler: the instance
    payload, the prediction items and the returned dict. *)
Inductive value : Type :=
| VNone
| VBool (b : bool)
| VInt (n : Z)
| VStr (s : string)
| VList (items : list value)
| VDict (entries : list (string * value)).

(** Exceptions.  [IndexError] and [ValueError] are the two the
    interpreter itself can raise on the handler's lines; [SdkError] is
    whatever the Google client library raises, by class name and message. *)
Inductive exn : Type :=
| IndexError (msg : string)
| ValueError (msg : string)
| SdkError (cls msg : string).

Inductive result (A : Type) : Type :=
| Ok (a : A)
| Raise (e : exn).
Arguments Ok {A} a.
Arguments Raise {A} e.

(** ** [str.format] and list subscription *)

(** [str(x)] for the two kinds of object [os.getenv] can hand back. *)
Definition str (x : option string) : string :=
  match x with
  | None => "None"
  | Some s => s
  end.

(** [tpl.format(a, b, ...)] for templates with automatically numbered fields:
    [{}] takes the next positional argument, [{{] and [}}] are escaped
    braces, surplus arguments are ignored.  Fields with a name, an index
    or a conversion do not occur in this module and are not interpreted:
    an opening brace followed by anything else is answered with the
    [ValueError] of an unterminated field. *)
Fixpoint format (tpl : string) (args : list (option string)) : result string :=
  match tpl with
  | EmptyString => Ok EmptyString
  | String "{" (String "{" rest) =>
      match format rest args with
      | Ok s => Ok (String "{" s)
      | Raise e => Raise e
      end
  | String "{" (String "}" rest) =>
      match args with
      | [] => Raise (IndexError "Replacement index out of range for positional args tuple")
      | a :: args' =>
          match format rest args' with
          | Ok s => Ok (str a ++ s)%string
          | Raise e => Raise e
          end
      end
  | String "{" _ => Raise (ValueError "expected '}' before end of string")
  | String "}" (String "}" rest) =>
      match format rest args with
      | Ok s => Ok (String "}" s)
      | Raise e => Raise e
      end
  | String "}" _ => Raise (ValueError "Single '}' encountered in format string")
  | String c rest =>
      match format rest args with
      | Ok s => Ok (String c s)
      | Raise e => Raise e
      end
  end.

(** [l[i]] on a Python list: negative indices count from the end, an index
    outside the list raises [IndexError]. *)
Definition list_getitem (l : list value) (i : Z) : result value :=
  let n := Z.of_nat (length l) in
  let j := if (i <? 0)%Z then (i + n)%Z else i in
  if ((j <? 0) || (n <=? j))%Z
  then Raise (IndexError "list index out of range")
  else match nth_error l (Z.to_nat j) with
       | Some v => Ok v
       | None => Raise (IndexError "list index out of range")
       end.

(** ** The collaborator: the Vertex AI SDK *)

(** The object [endpoint.predict] returns, by the type the SDK declares
    for it; the handler reads only its [predictions] attribute.  A
    collaborator that hands back an object of another shape (no such
    attribute, or one that is not a list) is outside this type, and so is
    what line 19 would raise on it. *)
Record Prediction : Type := {
  predictions : list value;
  deployed_model_id : string
}.

(** The three SDK entry points the module calls.  [R] is the state behind
    the SDK (its client configuration and the remote service), [E] the
    type of the endpoint objects it hands out.  Each call may return or
    raise, and may change [R]. *)
Record Sdk (R E : Type) : Type := {
  sdk_init : option string -> option string -> R -> result unit * R;
  sdk_Endpoint : string -> R -> result E * R;
  sdk_predict : E -> list value -> R -> result Prediction * R
}.

(** What crosses the boundary to the SDK, as a recording stub would see
    it. *)
Inductive event (E : Type) : Type :=
| Init (project location : option string)
| NewEndpoint (name : string)
| Predict (endpoint : E) (instances : list value).
Arguments Init {E} project location.
Arguments NewEndpoint {E} name.
Arguments Predict {E} endpoint instances.

(** ** Module state *)

Record route : Type := {
  http_method : string;
  path : string
}.

(** The module-level names of [app.py].  Of the application object [app]
    the model keeps the routes this module registers on it; the routes
    the framework installs in every application by itself are not part
    of it. *)
Record globals : Type := {
  app : list route;
  PROJECT_ID : option string;
  REGION : option string
}.

Record process (R : Type) : Type := {
  module : globals;
  remote : R
}.

(** [os.environ], as [os.getenv] sees it. *)
Definition environ : Type := string -> option string.

Definition getenv (env : environ) (key : string) : option string := env key.

Section Service.

Variables R E : Type.
Variable sdk : Sdk R E.

Definition trace : Type := list (event E).

(** Python statements over the process state: a result or an exception,
    the new state, and the SDK calls made on the way. *)
Definition M (A : Type) : Type := process R -> result A * process R * trace.

Definition ret {A} (a : A) : M A := fun p => (Ok a, p, []).

Definition bind {A B} (m : M A) (f : A -> M B) : M B :=
  fun p =>
    match m p with
    | (Ok a, p1, t1) =>
        let '(r, p2, t2) := f a p1 in (r, p2, t1 ++ t2)
    | (Raise e, p1, t1) => (Raise e, p1, t1)
    end.

Definition lift {A} (r : result A) : M A := fun p => (r, p, []).

Definition read_global {A} (f : globals -> A) : M A :=
  fun p => (Ok (f (module p)), p, []).

Definition write_global (f : globals -> globals) : M unit :=
  fun p => (Ok tt, {| module := f (module p); remote := remote p |}, []).

Definition aiplatform_init (project location : option string) : M unit :=
  fun p =>
    let (r, w) := sdk_init sdk project location (remote p) in
    (r, {| module := module p; remote := w |}, [Init project location]).

Definition aiplatform_Endpoint (name : string) : M E :=
  fun p =>
    let (r, w) := sdk_Endpoint sdk name (remote p) in
    (r, {| module := module p; remote := w |}, [NewEndpoint name]).

Definition endpoint_predict (endpoint : E) (instances : list value) : M Prediction :=
  fun p =>
    let (r, w) := sdk_predict sdk endpoint instances (remote p) in
    (r, {| module := module p; remote := w |}, [Predict endpoint instances]).

Notation "x <- m ;; k" := (bind m (fun x => k))
  (at level 61, m at next level, right associativity).
Notation "m ;;; k" := (bind m (fun _ => k))
  (at level 61, right associativity).

(** ** [generate] *)

(** The body of the coroutine, statement by statement.  It contains no
    [await], so one invocation runs from its first line to its return or
    its exception without yielding to another request. *)
Definition generate (prompt : string) : M value :=
  project <- read_global PROJECT_ID ;;
  region <- read_global REGION ;;
  name <- lift (format "projects/{}/locations/{}/endpoints/{}"
                       [project; region; Some "your-endpoint-id"]) ;;
  endpoint <- aiplatform_Endpoint name ;;
  response <- endpoint_predict endpoint [VDict [("prompt", VStr prompt)]] ;;
  first <- lift (list_getitem (predictions response) 0) ;;
  ret (VDict [("video_url", first)]).

End Service.

Arguments ret {R E A} a.
Arguments bind {R E A B} m f.
Arguments lift {R E A} r.
Arguments read_global {R E A} f.
Arguments write_global {R E} f.

Notation "x <- m ;; k" := (bind m (fun x => k))
  (at level 61, m at next level, right associativity).
Notation "m ;;; k" := (bind m (fun _ => k))
  (at level 61, right associativity).

(** ** Module body and HTTP surface *)

(** The module namespace before the first statement of [app.py] runs. *)
Definition blank : globals :=
  {| app := []; PROJECT_ID := None; REGION := None |}.

Definition set_app (a : list route) (g : globals) : globals :=
  {| app := a; PROJECT_ID := PROJECT_ID g; REGION := REGION g |}.

Definition set_PROJECT_ID (v : option string) (g : globals) : globals :=
  {| app := app g; PROJECT_ID := v; REGION := REGION g |}.

Definition set_REGION (v : option string) (g : globals) : globals :=
  {| app := app g; PROJECT_ID := PROJECT_ID g; REGION := v |}.

(** [@app.post(path)]: the decorator appends a POST route to the app. *)
Definition app_post (path : string) (g : globals) : globals :=
  set_app (app g ++ [{| http_method := "POST"; path := path |}]) g.

Record http_response : Type := {
  status_code : Z;
  body : value
}.

(** A process that finished importing the module and serves, or one whose
    import raised. *)
Inductive server (R : Type) : Type :=
| Up (p : process R)
| Down (e : exn).
Arguments Up {R} p.
Arguments Down {R} e.

Section Runtime.

Variables R E : Type.
Variable sdk : Sdk R E.

(** The top-level statements of [app.py], in order.  [app = FastAPI()]
    starts the application with none of this module's routes on it. *)
Definition module_body (env : environ) : M R E unit :=
  write_global (set_app []) ;;;
  write_global (set_PROJECT_ID (getenv env "GCP_PROJECT_ID")) ;;;
  write_global (set_REGION (getenv env "GCP_REGION")) ;;;
  project <- read_global PROJECT_ID ;;
  region <- read_global REGION ;;
  aiplatform_init sdk project region ;;;
  write_global (app_post "/generate-video").

(** Process start: import the module in a fresh namespace. *)
Definition startup (env : environ) (w : R) : server R * trace E :=
  match module_body env {| module := blank; remote := w |} with
  | (Ok _, p, t) => (Up p, t)
  | (Raise e, _, t) => (Down e, t)
  end.

(** Modelled from the spec: the HTTP runtime behind [@app.post], which is
    the FastAPI framework and not part of [src/].  Section 6: on success
    the body is the JSON object the handler returned, with HTTP 200; on
    failure the caller gets an HTTP error status.  An exception leaving
    the handler is answered with status 500 and the process goes on
    serving; the body of the error response is left to the implementer
    and is modelled as the framework's plain text.  A request here is one
    that was routed to the handler and carries the query parameter
    [prompt], whatever string it is. *)
Definition post_generate_video (prompt : string)
  : process R -> http_response * process R * trace E :=
  fun p =>
    match generate sdk prompt p with
    | (Ok v, p', t) => ({| status_code := 200; body := v |}, p', t)
    | (Raise _, p', t) =>
        ({| status_code := 500; body := VStr "Internal Server Error" |}, p', t)
    end.

(** Modelled from the spec: one request against the server, which is the
    HTTP runtime again.  A process that is up runs the route and keeps
    serving whatever the handler did; a process whose import failed
    accepts no traffic. *)
Definition handle (prompt : string) (s : server R)
  : option http_response * server R * trace E :=
  match s with
  | Up p =>
      let '(r, p', t) := post_generate_video prompt p in (Some r, Up p', t)
  | Down e => (None, Down e, [])
  end.

(** Modelled from the spec: a run of requests, one after the other
    (section 8 tests the handler on sequential calls). *)
Fixpoint serve (prompts : list string) (s : server R)
  : list (option http_response) * server R * trace E :=
  match prompts with
  | [] => ([], s, [])
  | prompt :: rest =>
      let '(r, s1, t1) := handle prompt s in
      let '(rs, s2, t2) := serve rest s1 in
      (r :: rs, s2, t1 ++ t2)
  end.

(** The instance lists of the predict calls in a trace, and the names of
    the endpoint references constructed in it. *)
Fixpoint payloads (t : trace E) : list (list value) :=
  match t with
  | [] => []
  | Predict _ instances :: t' => instances :: payloads t'
  | _ :: t' => payloads t'
  end.

Fixpoint endpoint_names (t : trace E) : list string :=
  match t with
  | [] => []
  | NewEndpoint name :: t' => name :: endpoint_names t'
  | _ :: t' => endpoint_names t'
  end.

(** The project and location the SDK client is configured with after the
    calls of a trace, given what it was configured with before them: only
    [aiplatform.init] sets them. *)
Fixpoint client_after (t : trace E)
  (before : option (option string * option string))
  : option (option string * option string) :=
  match t with
  | [] => before
  | Init project location :: t' => client_after t' (Some (project, location))
  | _ :: t' => client_after t' before
  end.

End Runtime.

(** The endpoint reference for a given module namespace, written out. *)
Definition endpoint_name (g : globals) : string :=
  ("projects/" ++ str (PROJECT_ID g) ++ "/locations/" ++ str (REGION g)
     ++ "/endpoints/" ++ "your-endpoint-id")%string.

(** The instance list built from a prompt. *)
Definition instances_of (prompt : string) : list value :=
  [VDict [("prompt", VStr prompt)]].

(** ** Stub collaborators *)

(** A recording stub: [init] and the [Endpoint] constructor accept
    anything, the endpoint object is the name it was built from, and
    [predict] answers [reply] for every input and appends the instances it
    was given to its state. *)
Definition recording_stub (reply : result Prediction)
  : Sdk (list (list value)) string :=
  {| sdk_init := fun _ _ w => (Ok tt, w);
     sdk_Endpoint := fun name w => (Ok name, w);
     sdk_predict := fun _ instances w => (reply, w ++ [instances]) |}.

(** A stub whose [Endpoint] constructor refuses every name, the way the
    client library refuses a location it does not know. *)
Definition refusing_stub : Sdk unit string :=
  {| sdk_init := fun _ _ w => (Ok tt, w);
     sdk_Endpoint := fun _ w =>
       (Raise (ValueError "Unsupported region for Vertex AI"), w);
     sdk_predict := fun _ _ w =>
       (Ok {| predictions := []; deployed_model_id := "" |}, w) |}.

(** A stub whose [init] refuses to start. *)
Definition failing_init_stub : Sdk unit string :=
  {| sdk_init := fun _ _ w =>
       (Raise (SdkError "GoogleAuthError" "no credentials"), w);
     sdk_Endpoint := fun name w => (Ok name, w);
     sdk_predict := fun _ _ w =>
       (Ok {| predictions := []; deployed_model_id := "" |}, w) |}.

Definition one_url (u : string) : result Prediction :=
  Ok {| predictions := [VStr u]; deployed_model_id := "m1" |}.

Definition no_env : environ := fun _ => None.

Definition gcp_env : environ :=
  fun key =>
    if String.eqb key "GCP_PROJECT_ID" then Some "demo-project"
    else if String.eqb key "GCP_REGION" then Some "us-central1"
    else None.

Definition demo_process : process (list (list value)) :=
  {| module := {| app := [{| http_method := "POST"; path := "/generate-video" |}];
                  PROJECT_ID := Some "demo-project";
                  REGION := Some "us-central1" |};
     remote := [] |}.

(** The process a start without [GCP_PROJECT_ID] and [GCP_REGION] leaves
    behind when [init] accepts. *)
Definition unconfigured_process : process unit :=
  {| module := {| app := [{| http_method := "POST"; path := "/generate-video" |}];
                  PROJECT_ID := None;
                  REGION := None |};
     remote := tt |}.

(** ** Runs of several invocations *)

Section Sequence.

Variables R E : Type.
Variable sdk : Sdk R E.

(** The handler invoked once per prompt, in order, each invocation from
    the process state the one before left behind. *)
Fixpoint generate_each (prompts : list string) (p : process R)
  : list (result value) * process R * trace E :=
  match prompts with
  | [] => ([], p, [])
  | prompt :: rest =>
      let '(r, p1, t1) := generate sdk prompt p in
      let '(rs, p2, t2) := generate_each rest p1 in
      (r :: rs, p2, t1 ++ t2)
  end.

End Sequence.

(** [subseq l1 l2]: [l1] is [l2] with some elements left out, the order
    kept. *)
Inductive subseq {A : Type} : list A -> list A -> Prop :=
| subseq_nil : subseq [] []
| subseq_skip (x : A) (l1 l2 : list A) : subseq l1 l2 -> subseq l1 (x :: l2)
| subseq_take (x : A) (l1 l2 : list A) : subseq l1 l2 -> subseq (x :: l1) (x :: l2).

(** Whether a string contains the separator of resource names. *)
Fixpoint has_slash (s : string) : bool :=
  match s with
  | EmptyString => false
  | String c s' => Ascii.eqb c "/" || has_slash s'
  end.

(** * Properties *)

(** ** The pure pieces *)

Lemma format_endpoint_template (a b c : option string) :
  format "projects/{}/locations/{}/endpoints/{}" [a; b; c]
  = Ok ("projects/" ++ str a ++ "/locations/" ++ str b
          ++ "/endpoints/" ++ str c)%string.
Proof.
  cbn [format].
  replace (str c) with (str c ++ "")%string at 2; [reflexivity|].
  induction (str c) as [|ch s IH]; cbn; [reflexivity | now rewrite IH].
Qed.

Lemma list_getitem_first (l : list value) :
  list_getitem l 0
  = match l with
    | [] => Raise (IndexError "list index out of range")
    | u :: _ => Ok u
    end.
Proof.
  destruct l as [|u l]; [reflexivity|].
  unfold list_getitem.
  change (0 <? 0)%Z with false. cbv iota.
  replace ((0 <? 0) || (Z.of_nat (length (u :: l)) <=? 0))%Z with false.
  - reflexivity.
  - symmetry. apply orb_false_iff. split; [reflexivity|].
    apply Z.leb_gt. cbn [length]. lia.
Qed.

Example format_escapes :
  format "{{{}}}" [Some "x"] = Ok "{x}".
Proof. reflexivity. Qed.

Example format_too_few :
  format "{}/{}" [None]
  = Raise (IndexError "Replacement index out of range for positional args tuple").
Proof. reflexivity. Qed.

Example getitem_negative :
  list_getitem [VInt 1; VInt 2; VInt 3] (-1) = Ok (VInt 3).
Proof. reflexivity. Qed.

(** ** One run of the handler, step by step *)

Section HandlerFacts.

Variables R E : Type.
Variable sdk : Sdk R E.

Lemma format_endpoint_name (g : globals) :
  format "projects/{}/locations/{}/endpoints/{}"
         [PROJECT_ID g; REGION g; Some "your-endpoint-id"]
  = Ok (endpoint_name g).
Proof. rewrite format_endpoint_template. reflexivity. Qed.

(** The three ways a run can go: the constructor raises, [predict] raises,
    or [predict] returns and the subscription decides. *)
Lemma generate_run (prompt : string) (p : process R) :
  generate sdk prompt p
  = let g := module p in
    let name := endpoint_name g in
    match sdk_Endpoint sdk name (remote p) with
    | (Raise e, w) =>
        (Raise e, {| module := g; remote := w |}, [NewEndpoint name])
    | (Ok ep, w) =>
        match sdk_predict sdk ep (instances_of prompt) w with
        | (Raise e, w') =>
            (Raise e, {| module := g; remote := w' |},
             [NewEndpoint name; Predict ep (instances_of prompt)])
        | (Ok response, w') =>
            (match predictions response with
             | [] => Raise (IndexError "list index out of range")
             | u :: _ => Ok (VDict [("video_url", u)])
             end,
             {| module := g; remote := w' |},
             [NewEndpoint name; Predict ep (instances_of prompt)])
        end
    end.
Proof.
  unfold generate, bind, read_global, lift, ret,
    aiplatform_Endpoint, endpoint_predict.
  rewrite format_endpoint_name. cbn zeta.
  destruct (sdk_Endpoint sdk (endpoint_name (module p)) (remote p))
    as [[ep|e] w]; [|reflexivity].
  cbn [module remote app].
  fold (instances_of prompt).
  destruct (sdk_predict sdk ep (instances_of prompt) w)
    as [[response|e] w']; [|reflexivity].
  rewrite list_getitem_first.
  destruct (predictions response) as [|u rest]; reflexivity.
Qed.

(** The handler writes no module global, whatever the SDK does. *)
Lemma generate_keeps_module (prompt : string) (p : process R) :
  module (snd (fst (generate sdk prompt p))) = module p.
Proof.
  rewrite generate_run. cbn zeta.
  destruct (sdk_Endpoint sdk _ _) as [[ep|e] w]; [|reflexivity].
  destruct (sdk_predict sdk _ _ _) as [[response|e] w']; reflexivity.
Qed.

(** Each run constructs one endpoint reference, the configured one. *)
Lemma generate_one_reference (prompt : string) (p : process R) :
  endpoint_names (snd (generate sdk prompt p)) = [endpoint_name (module p)].
Proof.
  rewrite generate_run. cbn zeta.
  destruct (sdk_Endpoint sdk _ _) as [[ep|e] w]; [|reflexivity].
  destruct (sdk_predict sdk _ _ _) as [[response|e] w']; reflexivity.
Qed.

Lemma post_keeps_module (prompt : string) (p : process R) :
  module (snd (fst (post_generate_video sdk prompt p))) = module p.
Proof.
  unfold post_generate_video.
  pose proof (generate_keeps_module prompt p) as H.
  destruct (generate sdk prompt p) as [[[v|e] p'] t]; exact H.
Qed.

(** A server that is up stays up, with the same module namespace, across
    any run of requests. *)
Lemma serve_up (prompts : list string) (p : process R) :
  exists p', snd (fst (serve sdk prompts (Up p))) = Up p'
             /\ module p' = module p.
Proof.
  revert p. induction prompts as [|prompt rest IH]; intros p.
  - exists p. split; reflexivity.
  - cbn [serve handle].
    pose proof (post_keeps_module prompt p) as Hm.
    destruct (post_generate_video sdk prompt p) as [[r p1] t1].
    cbn [fst snd] in Hm.
    destruct (IH p1) as (p' & Hs & Hg).
    destruct (serve sdk rest (Up p1)) as [[rs s2] t2].
    cbn [fst snd] in *.
    exists p'. split; [exact Hs | congruence].
Qed.

(** Every request to a server that is up gets a response. *)
Lemma serve_answers (prompts : list string) (p : process R) :
  Forall (fun r => r <> None) (fst (fst (serve sdk prompts (Up p)))).
Proof.
  revert p. induction prompts as [|prompt rest IH]; intros p.
  - constructor.
  - cbn [serve handle].
    destruct (post_generate_video sdk prompt p) as [[r p1] t1].
    specialize (IH p1).
    destruct (serve sdk rest (Up p1)) as [[rs s2] t2].
    cbn [fst snd] in *.
    constructor; [discriminate | exact IH].
Qed.

(** What [startup] leaves behind, by the outcome of [aiplatform.init]. *)
Lemma startup_run (env : environ) (w : R) :
  startup sdk env w
  = let project := getenv env "GCP_PROJECT_ID" in
    let region := getenv env "GCP_REGION" in
    match sdk_init sdk project region w with
    | (Ok _, w') =>
        (Up {| module := {| app := [{| http_method := "POST";
                                      path := "/generate-video" |}];
                            PROJECT_ID := project;
                            REGION := region |};
               remote := w' |},
         [Init project region])
    | (Raise e, _) => (Down e, [Init project region])
    end.
Proof.
  unfold startup, module_body, bind, write_global, read_global,
    aiplatform_init.
  cbn [module remote set_app set_PROJECT_ID set_REGION blank
       app PROJECT_ID REGION].
  destruct (sdk_init sdk _ _ w) as [[u|e] w']; reflexivity.
Qed.

End HandlerFacts.

Ltac run_handler :=
  unfold handle, post_generate_video; rewrite ?generate_run; cbn zeta.

Ltac with_calls H1 H2 :=
  run_handler; rewrite H1; rewrite H2; cbn [fst snd].

(** ** The success path *)

(** C1.  For a non-empty prompt P, when the [predict] call of the run
    returns a response whose predictions are [[U]], [generate] returns the
    dict [{"video_url": U}] and the route answers 200 with that dict as
    its body. *)
Theorem C1_video_url_is_first_prediction
  (R E : Type) (sdk : Sdk R E) (P : string) (p : process R)
  (ep : E) (w1 w2 : R) (response : Prediction) (U : value) :
  P <> "" ->
  sdk_Endpoint sdk (endpoint_name (module p)) (remote p) = (Ok ep, w1) ->
  sdk_predict sdk ep [VDict [("prompt", VStr P)]] w1 = (Ok response, w2) ->
  predictions response = [U] ->
  fst (fst (generate sdk P p)) = Ok (VDict [("video_url", U)])
  /\ fst (fst (post_generate_video sdk P p))
     = {| status_code := 200; body := VDict [("video_url", U)] |}.
Proof.
  intros _ Hep Hpredict Hpreds.
  fold (instances_of P) in Hpredict.
  split; with_calls Hep Hpredict; rewrite Hpreds; reflexivity.
Qed.

Lemma C1_cat_surfing :
  fst (fst (generate (recording_stub (one_url "https://example.com/v1.mp4"))
                     "a cat surfing" demo_process))
  = Ok (VDict [("video_url", VStr "https://example.com/v1.mp4")])
  /\ fst (fst (post_generate_video
                 (recording_stub (one_url "https://example.com/v1.mp4"))
                 "a cat surfing" demo_process))
     = {| status_code := 200;
          body := VDict [("video_url", VStr "https://example.com/v1.mp4")] |}.
Proof.
  apply (@C1_video_url_is_first_prediction _ _
           (recording_stub (one_url "https://example.com/v1.mp4"))
           "a cat surfing" demo_process
           "projects/demo-project/locations/us-central1/endpoints/your-endpoint-id"
           [] [[VDict [("prompt", VStr "a cat surfing")]]]
           {| predictions := [VStr "https://example.com/v1.mp4"];
              deployed_model_id := "m1" |}
           (VStr "https://example.com/v1.mp4")).
  - discriminate.
  - reflexivity.
  - reflexivity.
  - reflexivity.
Defined.

(** C2.  Whatever the prompt P and the state of the process, every
    [predict] call a run of [generate] makes carries the instance list
    [[{"prompt": P}]]: one instance, one field, the prompt as given. *)
Theorem C2_payload_is_one_prompt_instance
  (R E : Type) (sdk : Sdk R E) (P : string) (p : process R)
  (ep : E) (instances : list value) :
  In (Predict ep instances) (snd (generate sdk P p)) ->
  instances = [VDict [("prompt", VStr P)]].
Proof.
  rewrite generate_run. cbn zeta.
  destruct (sdk_Endpoint sdk _ _) as [[ep'|e] w].
  - destruct (sdk_predict sdk _ _ _) as [[response|e] w'];
      cbn [snd In]; intros [H|[H|[]]];
      solve [discriminate H | injection H as _ <-; reflexivity].
  - cbn [snd In]. intros [H|[]]. discriminate H.
Qed.

Lemma C2_recorded_payload :
  exists (ep : string) (instances : list value),
    In (Predict ep instances)
       (snd (generate (recording_stub (one_url "https://example.com/v1.mp4"))
                      "a cat surfing" demo_process))
    /\ instances = [VDict [("prompt", VStr "a cat surfing")]].
Proof.
  exists "projects/demo-project/locations/us-central1/endpoints/your-endpoint-id".
  exists [VDict [("prompt", VStr "a cat surfing")]].
  split.
  - right. left. reflexivity.
  - apply (@C2_payload_is_one_prompt_instance _ _
             (recording_stub (one_url "https://example.com/v1.mp4"))
             "a cat surfing" demo_process
             "projects/demo-project/locations/us-central1/endpoints/your-endpoint-id").
    right. left. reflexivity.
Defined.

(** ** The failure paths *)

(** C3.  When the [predict] call of the run returns a response with no
    predictions, [generate] raises [IndexError] at the subscription; the
    route answers with the error status 500, and the server is still up
    afterwards, with its module namespace as before. *)
Theorem C3_empty_predictions_is_an_error_response
  (R E : Type) (sdk : Sdk R E) (P : string) (p : process R)
  (ep : E) (w1 w2 : R) (response : Prediction) :
  sdk_Endpoint sdk (endpoint_name (module p)) (remote p) = (Ok ep, w1) ->
  sdk_predict sdk ep [VDict [("prompt", VStr P)]] w1 = (Ok response, w2) ->
  predictions response = [] ->
  fst (fst (generate sdk P p)) = Raise (IndexError "list index out of range")
  /\ fst (fst (handle sdk P (Up p)))
     = Some {| status_code := 500; body := VStr "Internal Server Error" |}
  /\ snd (fst (handle sdk P (Up p)))
     = Up {| module := module p; remote := w2 |}.
Proof.
  intros Hep Hpredict Hpreds.
  fold (instances_of P) in Hpredict.
  repeat split; with_calls Hep Hpredict; rewrite Hpreds; reflexivity.
Qed.

Lemma C3_empty_reply :
  fst (fst (generate
              (recording_stub (Ok {| predictions := []; deployed_model_id := "m1" |}))
              "a cat surfing" demo_process))
  = Raise (IndexError "list index out of range")
  /\ fst (fst (handle
                 (recording_stub (Ok {| predictions := []; deployed_model_id := "m1" |}))
                 "a cat surfing" (Up demo_process)))
     = Some {| status_code := 500; body := VStr "Internal Server Error" |}
  /\ snd (fst (handle
                 (recording_stub (Ok {| predictions := []; deployed_model_id := "m1" |}))
                 "a cat surfing" (Up demo_process)))
     = Up {| module := module demo_process;
             remote := [[VDict [("prompt", VStr "a cat surfing")]]] |}.
Proof.
  apply (@C3_empty_predictions_is_an_error_response _ _
           (recording_stub (Ok {| predictions := []; deployed_model_id := "m1" |}))
           "a cat surfing" demo_process
           "projects/demo-project/locations/us-central1/endpoints/your-endpoint-id"
           [] [[VDict [("prompt", VStr "a cat surfing")]]]
           {| predictions := []; deployed_model_id := "m1" |}).
  - reflexivity.
  - reflexivity.
  - reflexivity.
Defined.

(** C6.  When the [predict] call of the run raises an exception [e],
    whatever it is, [generate] raises that same [e] (nothing catches it),
    the route answers with the error status 500, and the server is still
    up afterwards. *)
Theorem C6_predict_failure_is_an_error_response
  (R E : Type) (sdk : Sdk R E) (P : string) (p : process R)
  (ep : E) (w1 w2 : R) (e : exn) :
  sdk_Endpoint sdk (endpoint_name (module p)) (remote p) = (Ok ep, w1) ->
  sdk_predict sdk ep [VDict [("prompt", VStr P)]] w1 = (Raise e, w2) ->
  fst (fst (generate sdk P p)) = Raise e
  /\ fst (fst (handle sdk P (Up p)))
     = Some {| status_code := 500; body := VStr "Internal Server Error" |}
  /\ snd (fst (handle sdk P (Up p)))
     = Up {| module := module p; remote := w2 |}.
Proof.
  intros Hep Hpredict.
  fold (instances_of P) in Hpredict.
  repeat split; with_calls Hep Hpredict; reflexivity.
Qed.

Lemma C6_quota_exceeded :
  fst (fst (generate
              (recording_stub (Raise (SdkError "ResourceExhausted" "quota")))
              "a cat surfing" demo_process))
  = Raise (SdkError "ResourceExhausted" "quota")
  /\ fst (fst (handle
                 (recording_stub (Raise (SdkError "ResourceExhausted" "quota")))
                 "a cat surfing" (Up demo_process)))
     = Some {| status_code := 500; body := VStr "Internal Server Error" |}
  /\ snd (fst (handle
                 (recording_stub (Raise (SdkError "ResourceExhausted" "quota")))
                 "a cat surfing" (Up demo_process)))
     = Up {| module := module demo_process;
             remote := [[VDict [("prompt", VStr "a cat surfing")]]] |}.
Proof.
  apply (@C6_predict_failure_is_an_error_response _ _
           (recording_stub (Raise (SdkError "ResourceExhausted" "quota")))
           "a cat surfing" demo_process
           "projects/demo-project/locations/us-central1/endpoints/your-endpoint-id"
           [] [[VDict [("prompt", VStr "a cat surfing")]]]
           (SdkError "ResourceExhausted" "quota")).
  - reflexivity.
  - reflexivity.
Defined.

(** ** The endpoint reference *)

(** C4.  Take a server that started from environment [env], and any run
    of earlier requests.  The next invocation, for any prompt, constructs
    exactly one endpoint reference, and its name is
    [projects/<project>/locations/<region>/endpoints/your-endpoint-id]
    with [<project>] and [<region>] the text of what [os.getenv] returned
    for [GCP_PROJECT_ID] and [GCP_REGION] at startup. *)
Theorem C4_endpoint_reference_form
  (R E : Type) (sdk : Sdk R E) (env : environ) (w : R)
  (p p' : process R) (t0 : trace E) (earlier : list string) (P : string) :
  startup sdk env w = (Up p, t0) ->
  snd (fst (serve sdk earlier (Up p))) = Up p' ->
  endpoint_names (snd (generate sdk P p'))
  = [("projects/" ++ str (getenv env "GCP_PROJECT_ID")
        ++ "/locations/" ++ str (getenv env "GCP_REGION")
        ++ "/endpoints/" ++ "your-endpoint-id")%string].
Proof.
  intros Hstart Hserved.
  rewrite startup_run in Hstart. cbn zeta in Hstart.
  destruct (sdk_init sdk _ _ w) as [[u|e] w0]; [|discriminate Hstart].
  injection Hstart as <- _.
  destruct (serve_up sdk earlier
              {| module := {| app := [{| http_method := "POST";
                                         path := "/generate-video" |}];
                              PROJECT_ID := getenv env "GCP_PROJECT_ID";
                              REGION := getenv env "GCP_REGION" |};
                 remote := w0 |}) as (q & Hq & Hmod).
  rewrite Hq in Hserved. injection Hserved as <-.
  rewrite generate_run. cbn zeta. rewrite Hmod.
  destruct (sdk_Endpoint sdk _ _) as [[ep|e] w1]; [|reflexivity].
  destruct (sdk_predict sdk _ _ _) as [[response|e] w2]; reflexivity.
Qed.

Lemma C4_third_request :
  endpoint_names
    (snd (generate (recording_stub (one_url "u")) "third"
            {| module := module demo_process;
               remote := [[VDict [("prompt", VStr "first")]];
                          [VDict [("prompt", VStr "second")]]] |}))
  = ["projects/demo-project/locations/us-central1/endpoints/your-endpoint-id"].
Proof.
  apply (@C4_endpoint_reference_form _ _ (recording_stub (one_url "u"))
           gcp_env [] demo_process
           {| module := module demo_process;
              remote := [[VDict [("prompt", VStr "first")]];
                         [VDict [("prompt", VStr "second")]]] |}
           [Init (Some "demo-project") (Some "us-central1")]
           ["first"; "second"] "third").
  - reflexivity.
  - reflexivity.
Defined.

(** ** Statelessness *)

(** C5.  Two calls in sequence, with prompts P1 then P2, from any state:
    the [predict] calls of the first carry only [[{"prompt": P1}]], those
    of the second only [[{"prompt": P2}]]; neither call changes the module
    namespace, so the second runs exactly as it would on a process whose
    handler side is untouched and whose collaborator is in the state the
    first call left it in. *)
Theorem C5_calls_are_independent
  (R E : Type) (sdk : Sdk R E) (P1 P2 : string) (p : process R) :
  let '(_, p1, t1) := generate sdk P1 p in
  let '(_, p2, t2) := generate sdk P2 p1 in
  Forall (fun instances => instances = [VDict [("prompt", VStr P1)]])
         (payloads t1)
  /\ Forall (fun instances => instances = [VDict [("prompt", VStr P2)]])
            (payloads t2)
  /\ module p1 = module p
  /\ module p2 = module p
  /\ generate sdk P2 p1
     = generate sdk P2 {| module := module p; remote := remote p1 |}.
Proof.
  assert (Hpay : forall P q,
             Forall (fun instances => instances = [VDict [("prompt", VStr P)]])
                    (payloads (snd (generate sdk P q)))).
  { intros P q. rewrite generate_run. cbn zeta.
    destruct (sdk_Endpoint sdk _ _) as [[ep|e] w]; [|constructor].
    destruct (sdk_predict sdk _ _ _) as [[response|e] w'];
      cbn [snd payloads]; repeat constructor. }
  pose proof (Hpay P1 p) as H1.
  pose proof (generate_keeps_module sdk P1 p) as M1.
  destruct (generate sdk P1 p) as [[r1 p1] t1]. cbn [fst snd] in H1, M1.
  pose proof (Hpay P2 p1) as H2.
  pose proof (generate_keeps_module sdk P2 p1) as M2.
  destruct (generate sdk P2 p1) as [[r2 p2] t2] eqn:Hsecond.
  cbn [fst snd] in H2, M2.
  repeat split; try assumption.
  - congruence.
  - rewrite <- Hsecond. rewrite <- M1. destruct p1; reflexivity.
Qed.

Example two_calls_recorded :
  snd (fst (serve (recording_stub (one_url "u")) ["first"; "second"]
                  (Up demo_process)))
  = Up {| module := module demo_process;
          remote := [[VDict [("prompt", VStr "first")]];
                     [VDict [("prompt", VStr "second")]]] |}.
Proof. reflexivity. Qed.

(** ** Startup *)



Example init_failure_is_fatal :
  serve failing_init_stub ["a cat surfing"; ""]
        (fst (startup failing_init_stub gcp_env tt))
  = ([None; None], Down (SdkError "GoogleAuthError" "no credentials"), []).
Proof. reflexivity. Qed.

(** ** Side effects *)


Example refused_run :
  startup refusing_stub no_env tt = (Up unconfigured_process, [Init None None])
  /\ generate refusing_stub "a cat surfing" unconfigured_process
     = (Raise (ValueError "Unsupported region for Vertex AI"),
        unconfigured_process,
        [NewEndpoint "projects/None/locations/None/endpoints/your-endpoint-id"]).
Proof. split; reflexivity. Qed.


Example reconfigured_client_is_seen :
  client_after [NewEndpoint "n"; Init (Some "other") None; @Predict string "n" []]
               (Some (Some "demo-project", Some "us-central1"))
  = Some (Some "other", None).
Proof. reflexivity. Qed.

(** ** No validation of the prompt *)

(** C9.  For every string P, the empty one included, a run of [generate]
    is the same pipeline: the endpoint reference is constructed, under a
    name that does not depend on P, and unless that constructor raises
    [predict] is called with [[{"prompt": P}]].  Nothing before the SDK
    calls can reject a prompt, and the route never answers with a 4xx
    status: it is 200 or 500. *)
Theorem C9_prompt_is_not_validated
  (R E : Type) (sdk : Sdk R E) (P : string) (p : process R) :
  snd (generate sdk P p)
  = NewEndpoint (endpoint_name (module p))
    :: match fst (sdk_Endpoint sdk (endpoint_name (module p)) (remote p)) with
       | Ok ep => [Predict ep [VDict [("prompt", VStr P)]]]
       | Raise _ => []
       end
  /\ (status_code (fst (fst (post_generate_video sdk P p))) = 200%Z
      \/ status_code (fst (fst (post_generate_video sdk P p))) = 500%Z).
Proof.
  split.
  - rewrite generate_run. cbn zeta.
    destruct (sdk_Endpoint sdk _ _) as [[ep|e] w]; [|reflexivity].
    destruct (sdk_predict sdk _ _ _) as [[response|e] w']; reflexivity.
  - unfold post_generate_video.
    destruct (generate sdk P p) as [[[v|e] p'] t]; [left | right]; reflexivity.
Qed.

Example empty_prompt_passes_through :
  post_generate_video (recording_stub (one_url "https://example.com/v1.mp4"))
                      "" demo_process
  = ({| status_code := 200;
        body := VDict [("video_url", VStr "https://example.com/v1.mp4")] |},
     {| module := module demo_process;
        remote := [[VDict [("prompt", VStr "")]]] |},
     [NewEndpoint
        "projects/demo-project/locations/us-central1/endpoints/your-endpoint-id";
      Predict
        "projects/demo-project/locations/us-central1/endpoints/your-endpoint-id"
        [VDict [("prompt", VStr "")]]]).
Proof. reflexivity. Qed.

(** ** What the response depends on *)

(** C10.  Take two runs, possibly against different collaborators, from
    different states and with different prompts, in each of which
    [predict] returned.  If the two responses agree on the first element
    of [predictions], the two runs of [generate] have the same outcome and
    the two HTTP responses are equal, whatever else the responses
    hold. *)
Theorem C10_response_depends_on_first_prediction_only
  (R1 E1 R2 E2 : Type) (sdk1 : Sdk R1 E1) (sdk2 : Sdk R2 E2)
  (P1 P2 : string) (p1 : process R1) (p2 : process R2)
  (ep1 : E1) (ep2 : E2) (w1 w1' : R1) (w2 w2' : R2)
  (response1 response2 : Prediction) :
  sdk_Endpoint sdk1 (endpoint_name (module p1)) (remote p1) = (Ok ep1, w1) ->
  sdk_predict sdk1 ep1 [VDict [("prompt", VStr P1)]] w1 = (Ok response1, w1') ->
  sdk_Endpoint sdk2 (endpoint_name (module p2)) (remote p2) = (Ok ep2, w2) ->
  sdk_predict sdk2 ep2 [VDict [("prompt", VStr P2)]] w2 = (Ok response2, w2') ->
  hd_error (predictions response1) = hd_error (predictions response2) ->
  fst (fst (generate sdk1 P1 p1)) = fst (fst (generate sdk2 P2 p2))
  /\ fst (fst (post_generate_video sdk1 P1 p1))
     = fst (fst (post_generate_video sdk2 P2 p2)).
Proof.
  intros Hep1 Hpredict1 Hep2 Hpredict2 Hfirst.
  fold (instances_of P1) in Hpredict1. fold (instances_of P2) in Hpredict2.
  split; run_handler;
    rewrite Hep1, Hpredict1, Hep2, Hpredict2; cbn [fst snd];
    destruct (predictions response1) as [|u1 rest1];
    destruct (predictions response2) as [|u2 rest2];
    cbn [hd_error] in Hfirst; try discriminate Hfirst;
    try (injection Hfirst as <-); reflexivity.
Qed.

Lemma C10_same_first_url :
  fst (fst (generate
              (recording_stub
                 (Ok {| predictions := [VStr "u"; VStr "spare"; VInt 7];
                        deployed_model_id := "m1" |}))
              "a cat surfing" demo_process))
  = fst (fst (generate (recording_stub (one_url "u")) "a dog"
                {| module := module demo_process;
                   remote := [[VDict [("prompt", VStr "earlier")]]] |}))
  /\ fst (fst (post_generate_video
                 (recording_stub
                    (Ok {| predictions := [VStr "u"; VStr "spare"; VInt 7];
                           deployed_model_id := "m1" |}))
                 "a cat surfing" demo_process))
     = fst (fst (post_generate_video (recording_stub (one_url "u")) "a dog"
                   {| module := module demo_process;
                      remote := [[VDict [("prompt", VStr "earlier")]]] |})).
Proof.
  apply (@C10_response_depends_on_first_prediction_only _ _ _ _
           (recording_stub
              (Ok {| predictions := [VStr "u"; VStr "spare"; VInt 7];
                     deployed_model_id := "m1" |}))
           (recording_stub (one_url "u"))
           "a cat surfing" "a dog" demo_process
           {| module := module demo_process;
              remote := [[VDict [("prompt", VStr "earlier")]]] |}
           "projects/demo-project/locations/us-central1/endpoints/your-endpoint-id"
           "projects/demo-project/locations/us-central1/endpoints/your-endpoint-id"
           [] [[VDict [("prompt", VStr "a cat surfing")]]]
           [[VDict [("prompt", VStr "earlier")]]]
           [[VDict [("prompt", VStr "earlier")]]; [VDict [("prompt", VStr "a dog")]]]
           {| predictions := [VStr "u"; VStr "spare"; VInt 7];
              deployed_model_id := "m1" |}
           {| predictions := [VStr "u"]; deployed_model_id := "m1" |}).
  - reflexivity.
  - reflexivity.
  - reflexivity.
  - reflexivity.
  - reflexivity.
Defined.

(** * Further properties of the module *)

(** ** Strings and traces *)

Lemma string_length_app (a b : string) :
  String.length (a ++ b) = (String.length a + String.length b)%nat.
Proof. induction a as [|c a IH]; cbn; [reflexivity | now rewrite IH]. Qed.

Lemma append_cancel_l (s a b : string) :
  (s ++ a)%string = (s ++ b)%string -> a = b.
Proof.
  induction s as [|c s IH]; cbn; intros H; [exact H|].
  injection H as H. exact (IH H).
Qed.

Lemma append_cancel_r (s a b : string) :
  (a ++ s)%string = (b ++ s)%string -> a = b.
Proof.
  revert b. induction a as [|c a IH]; intros [|d b] H; cbn in H.
  - reflexivity.
  - apply (f_equal String.length) in H. cbn in H.
    rewrite string_length_app in H. lia.
  - apply (f_equal String.length) in H. cbn in H.
    rewrite string_length_app in H. lia.
  - injection H as -> H. f_equal. exact (IH _ H).
Qed.

Lemma split_at_first_slash (a b x y : string) :
  has_slash a = false ->
  has_slash b = false ->
  (a ++ String "/" x)%string = (b ++ String "/" y)%string ->
  a = b /\ x = y.
Proof.
  revert b. induction a as [|c a IH]; intros [|d b] Ha Hb H; cbn in *.
  - injection H as ->. split; reflexivity.
  - injection H as <- _. cbn in Hb. discriminate Hb.
  - injection H as -> _. cbn in Ha. discriminate Ha.
  - apply orb_false_iff in Ha as [_ Ha]. apply orb_false_iff in Hb as [_ Hb].
    injection H as -> H.
    destruct (IH b Ha Hb H) as [-> ->]. split; reflexivity.
Qed.

Lemma payloads_app (E : Type) (t1 t2 : trace E) :
  payloads (t1 ++ t2) = payloads t1 ++ payloads t2.
Proof.
  induction t1 as [|[project location|name|ep instances] t1 IH]; cbn;
    [reflexivity | exact IH | exact IH | now rewrite IH].
Qed.

Lemma endpoint_names_app (E : Type) (t1 t2 : trace E) :
  endpoint_names (t1 ++ t2) = endpoint_names t1 ++ endpoint_names t2.
Proof.
  induction t1 as [|[project location|name|ep instances] t1 IH]; cbn;
    [reflexivity | exact IH | now rewrite IH | exact IH].
Qed.

Section OneCall.

Variables R E : Type.
Variable sdk : Sdk R E.

Lemma generate_payloads (prompt : string) (p : process R) :
  payloads (snd (generate sdk prompt p))
  = match fst (sdk_Endpoint sdk (endpoint_name (module p)) (remote p)) with
    | Ok _ => [instances_of prompt]
    | Raise _ => []
    end.
Proof.
  rewrite generate_run. cbn zeta.
  destruct (sdk_Endpoint sdk _ _) as [[ep|e] w]; [|reflexivity].
  destruct (sdk_predict sdk _ _ _) as [[response|e] w']; reflexivity.
Qed.

End OneCall.

(** ** One invocation: where its outcome comes from *)

(** X1.  When the [Endpoint] constructor raises [e], the invocation ends
    there: [generate] raises that same [e], [predict] is not called, and
    the SDK is left in the state the constructor left it in. *)
Theorem endpoint_failure_ends_the_invocation
  (R E : Type) (sdk : Sdk R E) (P : string) (p : process R)
  (e : exn) (w1 : R) :
  sdk_Endpoint sdk (endpoint_name (module p)) (remote p) = (Raise e, w1) ->
  generate sdk P p
  = (Raise e, {| module := module p; remote := w1 |},
     [NewEndpoint (endpoint_name (module p))]).
Proof.
  intros Hep. rewrite generate_run. cbn zeta. rewrite Hep. reflexivity.
Qed.

Lemma endpoint_failure_refused_region :
  generate refusing_stub "a cat surfing" unconfigured_process
  = (Raise (ValueError "Unsupported region for Vertex AI"),
     {| module := module unconfigured_process; remote := tt |},
     [NewEndpoint (endpoint_name (module unconfigured_process))]).
Proof.
  apply (@endpoint_failure_ends_the_invocation _ _ refusing_stub
           "a cat surfing" unconfigured_process
           (ValueError "Unsupported region for Vertex AI") tt).
  reflexivity.
Defined.

(** X2.  Whenever [generate] returns a value, that value is a dict with
    the single key [video_url], bound to the first item of a non-empty
    [predictions] list that [predict] returned for this prompt's instance
    list, on the endpoint object the constructor returned for the
    configured reference. *)
Theorem returned_value_is_a_first_prediction
  (R E : Type) (sdk : Sdk R E) (P : string) (p : process R) (v : value) :
  fst (fst (generate sdk P p)) = Ok v ->
  exists (ep : E) (w1 w2 : R) (response : Prediction)
         (u : value) (others : list value),
    sdk_Endpoint sdk (endpoint_name (module p)) (remote p) = (Ok ep, w1)
    /\ sdk_predict sdk ep [VDict [("prompt", VStr P)]] w1 = (Ok response, w2)
    /\ predictions response = u :: others
    /\ v = VDict [("video_url", u)].
Proof.
  rewrite generate_run. cbn zeta.
  destruct (sdk_Endpoint sdk _ _) as [[ep|e] w1] eqn:Hep;
    [|cbn [fst]; discriminate].
  destruct (sdk_predict sdk ep (instances_of P) w1) as [[response|e] w2]
    eqn:Hpredict; [|cbn [fst]; discriminate].
  cbn [fst].
  destruct (predictions response) as [|u others] eqn:Hpreds; [discriminate|].
  intros Hv. injection Hv as <-.
  exists ep, w1, w2, response, u, others.
  repeat split; [exact Hpredict | exact Hpreds].
Qed.

Lemma returned_value_from_stub :
  exists (ep : string) (w1 w2 : list (list value)) (response : Prediction)
         (u : value) (others : list value),
    sdk_Endpoint (recording_stub (one_url "https://example.com/v1.mp4"))
                 (endpoint_name (module demo_process)) (remote demo_process)
    = (Ok ep, w1)
    /\ sdk_predict (recording_stub (one_url "https://example.com/v1.mp4"))
                   ep [VDict [("prompt", VStr "a cat surfing")]] w1
       = (Ok response, w2)
    /\ predictions response = u :: others
    /\ VDict [("video_url", VStr "https://example.com/v1.mp4")]
       = VDict [("video_url", u)].
Proof.
  apply (@returned_value_is_a_first_prediction _ _
           (recording_stub (one_url "https://example.com/v1.mp4"))
           "a cat surfing" demo_process
           (VDict [("video_url", VStr "https://example.com/v1.mp4")])).
  reflexivity.
Defined.

(** X4.  [predict] is only ever called on the endpoint object the
    constructor returned for the configured reference, and only after
    that constructor ran: a [Predict] event comes second in the trace,
    behind the [NewEndpoint] event of that reference. *)
Theorem predict_only_on_the_constructed_endpoint
  (R E : Type) (sdk : Sdk R E) (P : string) (p : process R)
  (ep : E) (instances : list value) :
  In (Predict ep instances) (snd (generate sdk P p)) ->
  (exists w1,
      sdk_Endpoint sdk (endpoint_name (module p)) (remote p) = (Ok ep, w1))
  /\ snd (generate sdk P p)
     = [NewEndpoint (endpoint_name (module p)); Predict ep instances].
Proof.
  rewrite generate_run. cbn zeta.
  destruct (sdk_Endpoint sdk _ _) as [[ep'|e] w1] eqn:Hep.
  - destruct (sdk_predict sdk _ _ _) as [[response|e] w2];
      cbn [snd In]; intros [H|[H|[]]]; try discriminate H;
      injection H as -> <-; (split; [exists w1; reflexivity | reflexivity]).
  - cbn [snd In]. intros [H|[]]. discriminate H.
Qed.

Lemma predict_on_demo_endpoint :
  (exists w1,
      sdk_Endpoint (recording_stub (one_url "u"))
                   (endpoint_name (module demo_process)) (remote demo_process)
      = (Ok "projects/demo-project/locations/us-central1/endpoints/your-endpoint-id",
         w1))
  /\ snd (generate (recording_stub (one_url "u")) "a dog" demo_process)
     = [NewEndpoint (endpoint_name (module demo_process));
        Predict "projects/demo-project/locations/us-central1/endpoints/your-endpoint-id"
                [VDict [("prompt", VStr "a dog")]]].
Proof.
  apply (@predict_only_on_the_constructed_endpoint _ _
           (recording_stub (one_url "u")) "a dog" demo_process
           "projects/demo-project/locations/us-central1/endpoints/your-endpoint-id"
           [VDict [("prompt", VStr "a dog")]]).
  right. left. reflexivity.
Defined.

(** ** The reference string *)

(** X5.  The values are pasted into the reference as they are, so two
    configurations whose project texts contain no slash and which yield
    the same reference have the same project text and the same region
    text. *)
Theorem endpoint_name_determines_configuration (g1 g2 : globals) :
  has_slash (str (PROJECT_ID g1)) = false ->
  has_slash (str (PROJECT_ID g2)) = false ->
  endpoint_name g1 = endpoint_name g2 ->
  str (PROJECT_ID g1) = str (PROJECT_ID g2)
  /\ str (REGION g1) = str (REGION g2).
Proof.
  intros H1 H2 Hname. unfold endpoint_name in Hname.
  apply append_cancel_l in Hname.
  change ("/locations/" ++ ?x)%string
    with (String "/" ("locations/" ++ x))%string in Hname.
  destruct (split_at_first_slash _ _ _ _ H1 H2 Hname) as [Hproject Hrest].
  split; [exact Hproject|].
  apply append_cancel_l in Hrest.
  exact (append_cancel_r _ _ _ Hrest).
Qed.

Lemma endpoint_name_of_unset_and_spelled_none :
  str (PROJECT_ID {| app := []; PROJECT_ID := None; REGION := Some "us-central1" |})
  = str (PROJECT_ID {| app := []; PROJECT_ID := Some "None";
                       REGION := Some "us-central1" |})
  /\ str (REGION {| app := []; PROJECT_ID := None; REGION := Some "us-central1" |})
     = str (REGION {| app := []; PROJECT_ID := Some "None";
                      REGION := Some "us-central1" |}).
Proof.
  apply (@endpoint_name_determines_configuration
           {| app := []; PROJECT_ID := None; REGION := Some "us-central1" |}
           {| app := []; PROJECT_ID := Some "None"; REGION := Some "us-central1" |}).
  - reflexivity.
  - reflexivity.
  - reflexivity.
Defined.

(** Without the condition on the project text the reference is ambiguous:
    a slash in the project moves the boundary between the two fields. *)
Example endpoint_name_ambiguous_with_slash :
  endpoint_name {| app := []; PROJECT_ID := Some "a/locations/b";
                   REGION := Some "c" |}
  = endpoint_name {| app := []; PROJECT_ID := Some "a";
                     REGION := Some "b/locations/c" |}.
Proof. reflexivity. Qed.

(** ** Startup *)

(** X6.  Importing the module makes exactly one SDK call, [init] with the
    two values [os.getenv] returned, whether that call returns or raises:
    no endpoint is constructed and no prediction is requested before the
    first request. *)
Theorem startup_calls_init_once
  (R E : Type) (sdk : Sdk R E) (env : environ) (w : R) :
  snd (startup sdk env w)
  = [Init (getenv env "GCP_PROJECT_ID") (getenv env "GCP_REGION")].
Proof.
  rewrite startup_run. cbn zeta.
  destruct (sdk_init sdk _ _ w) as [[u|e] w0]; reflexivity.
Qed.

(** ** Any number of invocations *)

(** X8.  However many invocations run one after the other, and however
    each of them ends, there is one outcome per prompt and the module
    namespace is at the end what it was at the start. *)
Theorem generate_each_keeps_module
  (R E : Type) (sdk : Sdk R E) (prompts : list string) (p : process R) :
  length (fst (fst (generate_each sdk prompts p))) = length prompts
  /\ module (snd (fst (generate_each sdk prompts p))) = module p.
Proof.
  revert p. induction prompts as [|prompt rest IH]; intros p.
  - split; reflexivity.
  - cbn [generate_each].
    pose proof (generate_keeps_module sdk prompt p) as Hm.
    destruct (generate sdk prompt p) as [[r p1] t1]. cbn [fst snd] in Hm.
    destruct (IH p1) as [Hlen Hmod].
    destruct (generate_each sdk rest p1) as [[rs p2] t2].
    cbn [fst snd length] in *.
    split; [now rewrite Hlen | congruence].
Qed.

(** X9.  Over any run of invocations the endpoint references constructed
    are one per prompt and all the same string, the one of the module's
    configuration. *)
Theorem generate_each_same_reference
  (R E : Type) (sdk : Sdk R E) (prompts : list string) (p : process R) :
  endpoint_names (snd (generate_each sdk prompts p))
  = repeat (endpoint_name (module p)) (length prompts).
Proof.
  revert p. induction prompts as [|prompt rest IH]; intros p.
  - reflexivity.
  - cbn [generate_each].
    pose proof (generate_keeps_module sdk prompt p) as Hm.
    pose proof (generate_one_reference sdk prompt p) as Hname.
    destruct (generate sdk prompt p) as [[r p1] t1]. cbn [fst snd] in Hm, Hname.
    specialize (IH p1).
    destruct (generate_each sdk rest p1) as [[rs p2] t2].
    cbn [fst snd length repeat] in *.
    rewrite endpoint_names_app, Hname, IH, Hm. reflexivity.
Qed.

(** X10.  Over any run of invocations the instance lists sent to
    [predict] are those of the prompts, in the order of the prompts, with
    those of the invocations that ended before [predict] left out: no
    prompt is sent twice, out of order or under another request. *)
Theorem generate_each_payloads_in_order
  (R E : Type) (sdk : Sdk R E) (prompts : list string) (p : process R) :
  subseq (payloads (snd (generate_each sdk prompts p)))
         (map instances_of prompts).
Proof.
  revert p. induction prompts as [|prompt rest IH]; intros p.
  - constructor.
  - cbn [generate_each map].
    pose proof (generate_payloads sdk prompt p) as Hpay.
    destruct (generate sdk prompt p) as [[r p1] t1]. cbn [fst snd] in Hpay.
    specialize (IH p1).
    destruct (generate_each sdk rest p1) as [[rs p2] t2].
    cbn [fst snd] in *.
    rewrite payloads_app, Hpay.
    destruct (fst (sdk_Endpoint sdk _ _)); cbn [app];
      [apply subseq_take | apply subseq_skip]; exact IH.
Qed.

(** X11.  When the [Endpoint] constructor accepts the configured
    reference in every SDK state, a run of invocations sends every
    prompt to [predict], once each and in order, however the [predict]
    calls themselves end. *)
Theorem generate_each_forwards_every_prompt
  (R E : Type) (sdk : Sdk R E) (prompts : list string) (p : process R) :
  (forall w, exists ep w',
      sdk_Endpoint sdk (endpoint_name (module p)) w = (Ok ep, w')) ->
  payloads (snd (generate_each sdk prompts p)) = map instances_of prompts.
Proof.
  revert p. induction prompts as [|prompt rest IH]; intros p Haccepts.
  - reflexivity.
  - cbn [generate_each map].
    pose proof (generate_payloads sdk prompt p) as Hpay.
    pose proof (generate_keeps_module sdk prompt p) as Hm.
    destruct (Haccepts (remote p)) as (ep & w' & Hep).
    rewrite Hep in Hpay. cbn [fst] in Hpay.
    destruct (generate sdk prompt p) as [[r p1] t1]. cbn [fst snd] in Hpay, Hm.
    assert (Haccepts1 : forall w, exists ep w',
               sdk_Endpoint sdk (endpoint_name (module p1)) w = (Ok ep, w')).
    { rewrite Hm. exact Haccepts. }
    specialize (IH p1 Haccepts1).
    destruct (generate_each sdk rest p1) as [[rs p2] t2].
    cbn [fst snd] in *.
    rewrite payloads_app, Hpay, IH. reflexivity.
Qed.

Lemma generate_each_forwards_despite_failures :
  payloads (snd (generate_each
                   (recording_stub (Raise (SdkError "ResourceExhausted" "quota")))
                   ["first"; ""; "third"] demo_process))
  = map instances_of ["first"; ""; "third"].
Proof.
  apply (@generate_each_forwards_every_prompt _ _
           (recording_stub (Raise (SdkError "ResourceExhausted" "quota")))
           ["first"; ""; "third"] demo_process).
  intros w.
  exists (endpoint_name (module demo_process)), w.
  reflexivity.
Defined.
